(** * Satisfactory server hosting on AWS: the control handlers and the stack

    A shallow embedding of
    - [server-hosting/lambda/start.ts], [stop.ts] and [reboot.ts], the three
      Lambda handlers that start, stop and reboot the game server, and
    - [server-hosting/server-hosting-stack.ts], the CDK stack that declares
      the network placement, the security group, the instance, the saves
      bucket, the bootstrap commands and the optional control API.

    JavaScript values are finite trees; [JSON.stringify] is written out on
    them.  Code that has effects (the provider call, the console, the
    construct tree of the stack) runs in a small state-and-exception monad,
    so that a [throw] that escapes is a visible result. *)

From Stdlib Require Import Ascii.
From stdpp Require Import gmap strings list pretty.

Open Scope string_scope.
Open Scope Z_scope.

(** ** JavaScript values *)

(** Plain data, as the provider's client hands it to the handlers: the
    deserialised fields of an acknowledgment, or the own enumerable
    properties of an error object, in the order the object enumerates them.
    Numbers are the safe integers (status codes, state codes, retry counts);
    strings are sequences of bytes, the UTF-8 form of the text.  An object
    has no method, so no [toJSON] of its own.  Cyclic objects and BigInt
    values, the two kinds of value [JSON.stringify] refuses, are not trees of
    this type. *)
#[warnings="-register-all"]
Inductive JsValue : Type :=
| JsUndefined
| JsNull
| JsBool (b : bool)
| JsNumber (n : Z)
| JsString (s : string)
| JsArray (items : list JsValue)
| JsObject (props : list (string * JsValue)).

(** A value read where the source reads a possibly missing property. *)
Definition orUndefined (v : option string) : JsValue :=
  match v with
  | Some s => JsString s
  | None => JsUndefined
  end.

(** ** [JSON.stringify] *)

Module JSON.

Definition hexDigit (n : N) : ascii :=
  (if n <? 10 then ascii_of_N (48 + n) else ascii_of_N (87 + n))%N.

(** [\u00XX], the escape of a control character without a short form. *)
Definition unicodeEscape (c : ascii) : string :=
  let n := N_of_ascii c in
  "\u00" +:+ String (hexDigit (n / 16)) (String (hexDigit (n mod 16)) "").

(** One code unit of QuoteJSONString. *)
Definition quoteChar (c : ascii) : string :=
  let n := N_of_ascii c in
  (if n =? 8 then "\b"
   else if n =? 9 then "\t"
   else if n =? 10 then "\n"
   else if n =? 12 then "\f"
   else if n =? 13 then "\r"
   else if n =? 34 then "\" +:+ String c ""
   else if n =? 92 then "\\"
   else if n <? 32 then unicodeEscape c
   else String c "")%N.

Fixpoint quoteChars (s : string) : string :=
  match s with
  | EmptyString => ""
  | String c rest => quoteChar c +:+ quoteChars rest
  end.

(** QuoteJSONString: the text between double quotes, escaped. *)
Definition quote (s : string) : string :=
  String (ascii_of_N 34) (quoteChars s +:+ String (ascii_of_N 34) "").

Fixpoint join (sep : string) (parts : list string) : string :=
  match parts with
  | [] => ""
  | [p] => p
  | p :: rest => p +:+ sep +:+ join sep rest
  end.

(** SerializeJSONProperty: [None] is the [undefined] result.  A property
    whose value serialises to [undefined] is left out of an object; such
    an element of an array is written [null]. *)
Fixpoint serialize (v : JsValue) : option string :=
  match v with
  | JsUndefined => None
  | JsNull => Some "null"
  | JsBool true => Some "true"
  | JsBool false => Some "false"
  | JsNumber n => Some (pretty n)
  | JsString s => Some (quote s)
  | JsArray items =>
      let fix elements (l : list JsValue) : list string :=
        match l with
        | [] => []
        | x :: rest => default "null" (serialize x) :: elements rest
        end in
      Some ("[" +:+ join "," (elements items) +:+ "]")
  | JsObject props =>
      let fix members (l : list (string * JsValue)) : list string :=
        match l with
        | [] => []
        | (k, x) :: rest =>
            match serialize x with
            | Some text => (quote k +:+ ":" +:+ text) :: members rest
            | None => members rest
            end
        end in
      Some ("{" +:+ join "," (members props) +:+ "}")
  end.

(** [JSON.stringify(value)]: a string, or [undefined]. *)
Definition stringify (v : JsValue) : JsValue :=
  orUndefined (serialize v).

End JSON.

(** ** Effects: state and exceptions *)

(** How a piece of code ends: with a value, or with a thrown [e]. *)
Inductive Completion (E A : Type) : Type :=
| Normal (a : A)
| Throw (e : E).
Arguments Normal {E A} a.
Arguments Throw {E A} e.

(** A computation over a state [St] that may throw an [E]. *)
Definition Eff (St E A : Type) : Type := St -> Completion E A * St.

Definition ret {St E A} (a : A) : Eff St E A :=
  fun s => (Normal a, s).

Definition bind {St E A B} (m : Eff St E A) (k : A -> Eff St E B)
  : Eff St E B :=
  fun s =>
    match m s with
    | (Normal a, s') => k a s'
    | (Throw e, s') => (Throw e, s')
    end.

Definition throw {St E A} (e : E) : Eff St E A :=
  fun s => (Throw e, s).

(** [try { body } catch (error) { handler }] *)
Definition try_catch {St E A} (body : Eff St E A) (handler : E -> Eff St E A)
  : Eff St E A :=
  fun s =>
    match body s with
    | (Normal a, s') => (Normal a, s')
    | (Throw e, s') => handler e s'
    end.

Definition gets {St E A} (f : St -> A) : Eff St E A :=
  fun s => (Normal (f s), s).

Definition modify {St E} (f : St -> St) : Eff St E unit :=
  fun s => (Normal tt, f s).

Notation "'let*' x ':=' m 'in' k" := (bind m (fun x => k))
  (at level 10, x name, m at level 100, k at level 200).
Notation "m ';;;' k" := (bind m (fun _ => k))
  (at level 100, k at level 200, right associativity).

(** ** The Lambda runtime and the EC2 client *)

(** [new EC2Client({ region })] *)
Record EC2Client : Type := { region : option string }.

Inductive Ec2Action : Type := StartInstances | StopInstances | RebootInstances.

(** [new StartInstancesCommand({ InstanceIds })] and its two siblings.  An
    element of [InstanceIds] is a string or [undefined] ([None]). *)
Record Command : Type := {
  action : Ec2Action;
  InstanceIds : list (option string)
}.

Definition StartInstancesCommand (ids : list (option string)) : Command :=
  {| action := StartInstances; InstanceIds := ids |}.
Definition StopInstancesCommand (ids : list (option string)) : Command :=
  {| action := StopInstances; InstanceIds := ids |}.
Definition RebootInstancesCommand (ids : list (option string)) : Command :=
  {| action := RebootInstances; InstanceIds := ids |}.

(** What the promise of [client.send(command)] settles to.  (A promise that
    never settles is ended by the platform, at the timeout of the function;
    no handler code runs after it.) *)
Inductive SendOutcome : Type :=
| Resolved (output : JsValue)
| Rejected (error : JsValue).

Inductive ConsoleLine : Type :=
| ConsoleLog (args : list JsValue)
| ConsoleError (args : list JsValue).

(** The world one invocation runs in: the process environment, the provider
    behind the client, the console written so far and the commands handed to
    [client.send] so far. *)
Record World : Type := {
  process_env : gmap string string;
  provider : EC2Client -> Command -> SendOutcome;
  console : list ConsoleLine;
  sent : list (EC2Client * Command)
}.

(** An [async] function over that world: [Normal r] is the promise
    fulfilled with [r], [Throw e] the promise rejected with [e]. *)
Definition Lambda (A : Type) : Type := Eff World JsValue A.

(** [process.env.NAME] *)
Definition getenv (name : string) : Lambda (option string) :=
  gets (fun w => process_env w !! name).

Definition console_log (args : list JsValue) : Lambda unit :=
  modify (fun w =>
    {| process_env := process_env w; provider := provider w;
       console := console w ++ [ConsoleLog args]; sent := sent w |}).

Definition console_error (args : list JsValue) : Lambda unit :=
  modify (fun w =>
    {| process_env := process_env w; provider := provider w;
       console := console w ++ [ConsoleError args]; sent := sent w |}).

(** [await client.send(command)]: the command goes out, and a rejected
    promise is a throw at the [await]. *)
Definition send (client : EC2Client) (command : Command) : Lambda JsValue :=
  fun w =>
    let w' := {| process_env := process_env w; provider := provider w;
                 console := console w;
                 sent := sent w ++ [(client, command)] |} in
    match provider w client command with
    | Resolved output => (Normal output, w')
    | Rejected error => (Throw error, w')
    end.

(** The object a handler returns. *)
Record Response : Type := {
  statusCode : Z;
  headers : list (string * string);
  body : JsValue
}.

(** *** [server-hosting/lambda/start.ts] *)

Module start.

(** [export const handler = async () => { ... }]: the function declares no
    parameter, so whatever the runtime passes ([arguments]) is not bound. *)
Definition handler (arguments : list JsValue) : Lambda Response :=
  let* instanceId := getenv "INSTANCE_ID" in
  console_log [JsString "Attempting to start game server";
               orUndefined instanceId] ;;;
  let* AWS_REGION := getenv "AWS_REGION" in
  let client := {| region := AWS_REGION |} in
  let command := StartInstancesCommand [instanceId] in
  try_catch
    (let* response := send client command in
     console_log [JSON.stringify response] ;;;
     ret {| statusCode := 200;
            headers := [("Content-Type", "text/json")];
            body := JSON.stringify (JsObject [
              ("message", JsString "Started satisfactory server");
              ("response", JSON.stringify response)]) |})
    (fun error =>
     console_error [JSON.stringify error] ;;;
     ret {| statusCode := 200;
            headers := [("Content-Type", "text/json")];
            body := JSON.stringify (JsObject [
              ("message", JsString "Failed to start satisfactory server");
              ("response", JSON.stringify error)]) |}).

End start.

(** *** [server-hosting/lambda/stop.ts] *)

Module stop.

Definition handler (arguments : list JsValue) : Lambda Response :=
  let* instanceId := getenv "INSTANCE_ID" in
  console_log [JsString "Attempting to stop game server";
               orUndefined instanceId] ;;;
  let* AWS_REGION := getenv "AWS_REGION" in
  let client := {| region := AWS_REGION |} in
  let command := StopInstancesCommand [instanceId] in
  try_catch
    (let* response := send client command in
     console_log [JSON.stringify response] ;;;
     ret {| statusCode := 200;
            headers := [("Content-Type", "text/json")];
            body := JSON.stringify (JsObject [
              ("message", JsString "Stopped satisfactory server");
              ("response", JSON.stringify response)]) |})
    (fun error =>
     console_error [JSON.stringify error] ;;;
     ret {| statusCode := 200;
            headers := [("Content-Type", "text/json")];
            body := JSON.stringify (JsObject [
              ("message", JsString "Failed to stop satisfactory server");
              ("response", JSON.stringify error)]) |}).

End stop.

(** *** [server-hosting/lambda/reboot.ts] *)

Module reboot.

Definition handler (arguments : list JsValue) : Lambda Response :=
  let* instanceId := getenv "INSTANCE_ID" in
  console_log [JsString "Attempting to reboot game server";
               orUndefined instanceId] ;;;
  let* AWS_REGION := getenv "AWS_REGION" in
  let client := {| region := AWS_REGION |} in
  let command := RebootInstancesCommand [instanceId] in
  try_catch
    (let* response := send client command in
     console_log [JSON.stringify response] ;;;
     ret {| statusCode := 200;
            headers := [("Content-Type", "text/json")];
            body := JSON.stringify (JsObject [
              ("message", JsString "Rebooted satisfactory server");
              ("response", JSON.stringify response)]) |})
    (fun error =>
     console_error [JSON.stringify error] ;;;
     ret {| statusCode := 200;
            headers := [("Content-Type", "text/json")];
            body := JSON.stringify (JsObject [
              ("message", JsString "Failed to reboot satisfactory server");
              ("response", JSON.stringify error)]) |}).

End reboot.

(** ** [server-hosting/server-hosting-stack.ts] *)

(** [type HandlerType = "Start" | "Stop" | "Reboot"] *)
Inductive HandlerType : Type := Start | Stop | Reboot.

(** The string a [HandlerType] is. *)
Definition HandlerType_string (handler : HandlerType) : string :=
  match handler with
  | Start => "Start"
  | Stop => "Stop"
  | Reboot => "Reboot"
  end.

Definition lowerChar (c : ascii) : ascii :=
  let n := N_of_ascii c in
  (if (65 <=? n) && (n <=? 90) then ascii_of_N (n + 32) else c)%N.

(** [String.prototype.toLowerCase], on the ASCII letters. *)
Fixpoint toLowerCase (s : string) : string :=
  match s with
  | EmptyString => EmptyString
  | String c rest => String (lowerChar c) (toLowerCase rest)
  end.

(** The module a function's [entry] names. *)
Definition entryModule (handler : HandlerType)
  : list JsValue -> Lambda Response :=
  match handler with
  | Start => start.handler
  | Stop => stop.handler
  | Reboot => reboot.handler
  end.

(** Modelled from the spec: the [Config] object that the stack imports from
    [./config].  The optional settings are strings that may be missing
    ([None] is [undefined]); the two toggles are booleans, the first of
    which may be missing. *)
Record ConfigT : Type := {
  prefix : string;
  account : string;
  vpcId : option string;
  subnetId : option string;
  availabilityZone : option string;
  bucketName : option string;
  restartApi : option bool;
  useExperimentalBuild : bool
}.

(** The test [if (x)] does on a string that may be missing: [undefined] and
    the empty string are falsy, and in the true branch [x] is a string, which
    is not empty. *)
Definition truthy (x : option string) : option string :=
  match x with
  | Some s => if String.eqb s "" then None else Some s
  | None => None
  end.

(** [if (x)] on a boolean that may be missing. *)
Definition truthyFlag (x : option bool) : bool :=
  match x with
  | Some b => b
  | None => false
  end.

(** [x === true] *)
Definition strictlyTrue (x : option bool) : bool :=
  match x with
  | Some true => true
  | _ => false
  end.

(** What a boolean becomes inside a template literal. *)
Definition Boolean_toString (b : bool) : string :=
  if b then "true" else "false".

(** *** The constructs the stack declares *)

(** The string that stands, at synthesis, for an attribute the provider
    assigns at deployment. *)
Definition Token (construct attribute : string) : string :=
  "${Token[" +:+ construct +:+ "." +:+ attribute +:+ "]}".

(** Handles: what the source holds in [vpc], [securityGroup], [server],
    [savesBucket], [restApi] and so on.  A handle names the construct it
    refers to by its id in the stack. *)
Record IVpc : Type := { vpc_node : string }.
Record ISubnet : Type := { subnet_node : string }.
Record ISecurityGroup : Type := { securityGroup_node : string }.
Record IRole : Type := { role_owner : string }.
Record IBucket : Type := { bucket_node : string; bucket_bucketName : string }.
Record Instance : Type := { instance_node : string }.
Record Asset : Type := { asset_node : string }.
Record RestApi : Type := { restApi_node : string }.
Record NodejsFunction : Type := { function_node : string }.
Record UserData : Type := { userData_owner : string }.

(** [server.role], [server.userData], [server.instanceId] *)
Definition Instance_role (server : Instance) : IRole :=
  {| role_owner := instance_node server |}.
Definition Instance_userData (server : Instance) : UserData :=
  {| userData_owner := instance_node server |}.
Definition Instance_instanceId (server : Instance) : string :=
  Token (instance_node server) "InstanceId".

(** [startupScript.bucket], [startupScript.s3ObjectKey] *)
Definition Asset_bucket (a : Asset) : IBucket :=
  {| bucket_node := asset_node a;
     bucket_bucketName := Token (asset_node a) "S3BucketName" |}.
Definition Asset_s3ObjectKey (a : Asset) : string :=
  Token (asset_node a) "S3ObjectKey".

(** The options of [Vpc.fromLookup]. *)
Record VpcLookupOptions : Type := {
  lookup_vpcId : option string;
  lookup_isDefault : option bool
}.

Inductive SubnetType : Type :=
| PRIVATE_ISOLATED
| PRIVATE_WITH_EGRESS
| PUBLIC.

(** [SubnetSelection], with the two properties the source sets. *)
Record SubnetSelection : Type := {
  subnets : option (list ISubnet);
  subnetType : option SubnetType
}.

Inductive Peer : Type := anyIpv4 | anyIpv6.
Inductive Port : Type := tcp (port : Z) | udp (port : Z).

Record IngressRule : Type := {
  rule_group : ISecurityGroup;
  rule_peer : Peer;
  rule_connection : Port;
  rule_description : string
}.

Record InstanceProps : Type := {
  instanceType : string;
  machineImage : string;
  blockDevices : list (string * Z);
  vpcSubnets : SubnetSelection;
  userDataCausesReplacement : bool;
  instance_vpc : IVpc;
  instance_securityGroup : ISecurityGroup
}.

Inductive Runtime : Type := NODEJS_18_X | NODEJS_20_X.

Record NodejsFunctionProps : Type := {
  entry : string;
  description : string;
  timeout_seconds : Z;
  environment : list (string * string);
  runtime : Runtime
}.

Record PolicyStatement : Type := {
  actions : list string;
  resources : list string
}.

Inductive Construct : Type :=
| VpcFromLookup (options : VpcLookupOptions)
| SubnetFromAttributes (az sid : string)
| NewSecurityGroup (vpc : IVpc) (text : string)
| NewInstance (props : InstanceProps)
| BucketFromName (name : string)
| NewBucket
| NewAsset (path : string)
| NewRestApi
| NewNodejsFunction (props : NodejsFunctionProps).

(** What a role is allowed. *)
Inductive Permission : Type :=
| ManagedPolicy (name : string)
| BucketReadWrite (bucket : IBucket)
| AssetRead (a : Asset)
| Statement (statement : PolicyStatement).

(** One entry of an instance's user data, in the order of the calls. *)
Inductive UserDataEntry : Type :=
| Commands (lines : list string)
| S3DownloadCommand (bucket : IBucket) (bucketKey : string)
| ExecuteFileCommand (filePath : string) (args : string).

Record Resource : Type := { resource_api : RestApi; resource_path : string }.

Record Method : Type := {
  method_resource : Resource;
  httpMethod : string;
  integration : NodejsFunction
}.

(** The stack under construction: its child constructs by id, in the order
    of their creation, and what the calls of the constructor attached to
    them. *)
Record Stack : Type := {
  children : list (string * Construct);
  ingressRules : list IngressRule;
  permissions : list (IRole * Permission);
  userData : list (UserData * UserDataEntry);
  apiResources : list Resource;
  apiMethods : list Method
}.

Definition emptyStack : Stack :=
  {| children := []; ingressRules := []; permissions := []; userData := [];
     apiResources := []; apiMethods := [] |}.

(** Synthesis throws an error message. *)
Definition Synth (A : Type) : Type := Eff Stack string A.

Definition hasChild (id : string) (st : Stack) : bool :=
  existsb (String.eqb id) (map fst (children st)).

(** [new C(this, id, ...)] and the static [from...(this, id, ...)]: the
    construct becomes a child of the stack, and a second child of the same
    id is refused. *)
Definition addChild (id : string) (c : Construct) : Synth unit :=
  fun st =>
    if hasChild id st then
      throw ("There is already a Construct with name '" +:+ id +:+ "'") st
    else
      (Normal tt,
       {| children := children st ++ [(id, c)];
          ingressRules := ingressRules st; permissions := permissions st;
          userData := userData st; apiResources := apiResources st;
          apiMethods := apiMethods st |}).

Definition Vpc_fromLookup (id : string) (options : VpcLookupOptions)
  : Synth IVpc :=
  addChild id (VpcFromLookup options) ;;; ret {| vpc_node := id |}.

Definition Subnet_fromSubnetAttributes (id : string)
    (availabilityZone subnetId : string) : Synth ISubnet :=
  addChild id (SubnetFromAttributes availabilityZone subnetId) ;;;
  ret {| subnet_node := id |}.

Definition new_SecurityGroup (id : string) (vpc : IVpc) (text : string)
  : Synth ISecurityGroup :=
  addChild id (NewSecurityGroup vpc text) ;;;
  ret {| securityGroup_node := id |}.

Definition addIngressRule (securityGroup : ISecurityGroup) (peer : Peer)
    (connection : Port) (text : string) : Synth unit :=
  modify (fun st =>
    {| children := children st;
       ingressRules := ingressRules st ++
         [{| rule_group := securityGroup; rule_peer := peer;
             rule_connection := connection; rule_description := text |}];
       permissions := permissions st; userData := userData st;
       apiResources := apiResources st; apiMethods := apiMethods st |}).

Definition new_Instance (id : string) (props : InstanceProps)
  : Synth Instance :=
  addChild id (NewInstance props) ;;; ret {| instance_node := id |}.

Definition allow (role : IRole) (p : Permission) : Synth unit :=
  modify (fun st =>
    {| children := children st; ingressRules := ingressRules st;
       permissions := permissions st ++ [(role, p)];
       userData := userData st; apiResources := apiResources st;
       apiMethods := apiMethods st |}).

(** [role.addManagedPolicy(ManagedPolicy.fromAwsManagedPolicyName(name))] *)
Definition addManagedPolicy (role : IRole) (name : string) : Synth unit :=
  allow role (ManagedPolicy name).

Definition Bucket_fromBucketName (id : string) (name : string)
  : Synth IBucket :=
  addChild id (BucketFromName name) ;;;
  ret {| bucket_node := id; bucket_bucketName := name |}.

(** [new Bucket(this, id)]: no name is given, the provider generates one. *)
Definition new_Bucket (id : string) : Synth IBucket :=
  addChild id NewBucket ;;;
  ret {| bucket_node := id; bucket_bucketName := Token id "Ref" |}.

Definition grantReadWrite (bucket : IBucket) (role : IRole) : Synth unit :=
  allow role (BucketReadWrite bucket).

Definition addUserData (target : UserData) (e : UserDataEntry) : Synth unit :=
  modify (fun st =>
    {| children := children st; ingressRules := ingressRules st;
       permissions := permissions st;
       userData := userData st ++ [(target, e)];
       apiResources := apiResources st; apiMethods := apiMethods st |}).

Definition addCommands (target : UserData) (lines : list string)
  : Synth unit :=
  addUserData target (Commands lines).

Definition new_Asset (id : string) (path : string) : Synth Asset :=
  addChild id (NewAsset path) ;;; ret {| asset_node := id |}.

Definition grantRead (a : Asset) (role : IRole) : Synth unit :=
  allow role (AssetRead a).

(** [userData.addS3DownloadCommand({ bucket, bucketKey })]: with no
    [localFile] given the file goes under [/tmp], and its path is returned. *)
Definition addS3DownloadCommand (target : UserData) (bucket : IBucket)
    (bucketKey : string) : Synth string :=
  addUserData target (S3DownloadCommand bucket bucketKey) ;;;
  ret ("/tmp/" +:+ bucketKey).

Definition addExecuteFileCommand (target : UserData) (filePath args : string)
  : Synth unit :=
  addUserData target (ExecuteFileCommand filePath args).

Definition new_RestApi (id : string) : Synth RestApi :=
  addChild id NewRestApi ;;; ret {| restApi_node := id |}.

Definition new_NodejsFunction (id : string) (props : NodejsFunctionProps)
  : Synth NodejsFunction :=
  addChild id (NewNodejsFunction props) ;;; ret {| function_node := id |}.

Definition addToRolePolicy (lambda : NodejsFunction)
    (statement : PolicyStatement) : Synth unit :=
  allow {| role_owner := function_node lambda |} (Statement statement).

(** [restApi.root] *)
Definition RestApi_root (restApi : RestApi) : Resource :=
  {| resource_api := restApi; resource_path := "/" |}.

(** The path of a resource: that of its parent, a slash unless the parent's
    ends with one, and the path part. *)
Fixpoint endsWithSlash (s : string) : bool :=
  match s with
  | EmptyString => false
  | String c EmptyString => Ascii.eqb c "/"
  | String _ rest => endsWithSlash rest
  end.

Definition childPath (parentPath pathPart : string) : string :=
  if endsWithSlash parentPath then parentPath +:+ pathPart
  else parentPath +:+ "/" +:+ pathPart.

Definition addResource (parent : Resource) (pathPart : string)
  : Synth Resource :=
  let resource :=
    {| resource_api := resource_api parent;
       resource_path := childPath (resource_path parent) pathPart |} in
  modify (fun st =>
    {| children := children st; ingressRules := ingressRules st;
       permissions := permissions st; userData := userData st;
       apiResources := apiResources st ++ [resource];
       apiMethods := apiMethods st |}) ;;;
  ret resource.

(** [resource.addMethod(httpMethod, new LambdaIntegration(lambda))] *)
Definition addMethod (resource : Resource) (verb : string)
    (lambda : NodejsFunction) : Synth unit :=
  modify (fun st =>
    {| children := children st; ingressRules := ingressRules st;
       permissions := permissions st; userData := userData st;
       apiResources := apiResources st;
       apiMethods := apiMethods st ++
         [{| method_resource := resource; httpMethod := verb;
             integration := lambda |}] |}).

(** *** The stack *)

(** [InstanceClass.M5A] and [InstanceSize.XLARGE] *)
Definition InstanceClass_M5A : string := "m5a".
Definition InstanceSize_XLARGE : string := "xlarge".

(** The quotation mark, for the commands that quote their arguments. *)
Definition dquote : string := String (ascii_of_N 34) EmptyString.

Section ServerHostingStack.

Variable Config : ConfigT.

Definition createLambda (restApi : RestApi) (instanceId : string)
    (handler : HandlerType) : Synth unit :=
  let* lambda :=
    new_NodejsFunction
      (Config.(prefix) +:+ HandlerType_string handler +:+ "ServerLambda")
      {| entry := "./server-hosting/lambda/" +:+
                  toLowerCase (HandlerType_string handler) +:+ ".ts";
         description := HandlerType_string handler +:+ " game server";
         timeout_seconds := 10;
         environment := [("INSTANCE_ID", instanceId)];
         runtime := NODEJS_20_X |} in
  addToRolePolicy lambda
    {| actions := ["ec2:" +:+ HandlerType_string handler +:+ "Instances"];
       resources := ["arn:aws:ec2:*:" +:+ Config.(account) +:+ ":instance/" +:+
                     instanceId] |} ;;;
  let* resource :=
    addResource (RestApi_root restApi)
      (toLowerCase (HandlerType_string handler)) in
  addMethod resource "GET" lambda.

(** [lookUpOrDefaultVpc], [publicOrLookupSubnet] and [findOrCreateBucket] are
    closures of the constructor over [this] and over
    [const prefix = Config.prefix]. *)
Definition lookUpOrDefaultVpc (vpcId : option string) : Synth IVpc :=
  match truthy vpcId with
  | Some vpcId =>
      Vpc_fromLookup (Config.(prefix) +:+ "Vpc")
        {| lookup_vpcId := Some vpcId; lookup_isDefault := None |}
  | None =>
      Vpc_fromLookup (Config.(prefix) +:+ "Vpc")
        {| lookup_vpcId := None; lookup_isDefault := Some true |}
  end.

Definition publicOrLookupSubnet (subnetId availabilityZone : option string)
  : Synth SubnetSelection :=
  match truthy subnetId, truthy availabilityZone with
  | Some subnetId, Some availabilityZone =>
      let* subnet :=
        Subnet_fromSubnetAttributes (Config.(prefix) +:+ "ServerSubnet")
          availabilityZone subnetId in
      ret {| subnets := Some [subnet]; subnetType := None |}
  | _, _ =>
      ret {| subnets := None; subnetType := Some PUBLIC |}
  end.

Definition findOrCreateBucket (bucketName : option string) : Synth IBucket :=
  match truthy bucketName with
  | Some bucketName =>
      Bucket_fromBucketName (Config.(prefix) +:+ "SavesBucket") bucketName
  | None =>
      new_Bucket (Config.(prefix) +:+ "SavesBucket")
  end.

(** [new ServerHostingStack(scope, id, props)], on the stack [this] that
    [super(scope, id, props)] has made. *)
Definition constructor : Synth unit :=
  let* vpc := lookUpOrDefaultVpc Config.(vpcId) in
  let* vpcSubnets :=
    publicOrLookupSubnet Config.(subnetId) Config.(availabilityZone) in
  let* securityGroup :=
    new_SecurityGroup (Config.(prefix) +:+ "ServerSecurityGroup") vpc
      "Allow Satisfactory client to connect to server" in
  addIngressRule securityGroup anyIpv4 (udp 7777) "Game port" ;;;
  addIngressRule securityGroup anyIpv4 (udp 15000) "Beacon port" ;;;
  addIngressRule securityGroup anyIpv4 (udp 15777) "Query port" ;;;
  let* server :=
    new_Instance (Config.(prefix) +:+ "Server")
      {| instanceType := InstanceClass_M5A +:+ "." +:+ InstanceSize_XLARGE;
         machineImage :=
           "/aws/service/canonical/ubuntu/server/20.04/stable/current/amd64/hvm/ebs-gp2/ami-id";
         blockDevices := [("/dev/sda1", 30)];
         vpcSubnets := vpcSubnets;
         userDataCausesReplacement := true;
         instance_vpc := vpc;
         instance_securityGroup := securityGroup |} in
  addManagedPolicy (Instance_role server) "AmazonSSMManagedInstanceCore" ;;;
  let* savesBucket := findOrCreateBucket Config.(bucketName) in
  grantReadWrite savesBucket (Instance_role server) ;;;
  addCommands (Instance_userData server) ["sudo apt-get install unzip -y"] ;;;
  addCommands (Instance_userData server)
    ["curl " +:+ dquote +:+
     "https://awscli.amazonaws.com/awscli-exe-linux-x86_64.zip" +:+ dquote +:+
     " -o " +:+ dquote +:+ "awscliv2.zip" +:+ dquote +:+
     " && unzip awscliv2.zip && ./aws/install"] ;;;
  let* startupScript :=
    new_Asset (Config.(prefix) +:+ "InstallAsset")
      "./server-hosting/scripts/install.sh" in
  grantRead startupScript (Instance_role server) ;;;
  let* localPath :=
    addS3DownloadCommand (Instance_userData server)
      (Asset_bucket startupScript) (Asset_s3ObjectKey startupScript) in
  addExecuteFileCommand (Instance_userData server) localPath
    (bucket_bucketName savesBucket +:+ " " +:+
     Boolean_toString Config.(useExperimentalBuild)) ;;;
  if truthyFlag Config.(restartApi) && strictlyTrue Config.(restartApi) then
    let* restApi := new_RestApi (Config.(prefix) +:+ "ServerApi") in
    createLambda restApi (Instance_instanceId server) Start ;;;
    createLambda restApi (Instance_instanceId server) Stop ;;;
    createLambda restApi (Instance_instanceId server) Reboot
  else
    ret tt.

End ServerHostingStack.

(** ** What the statements below speak of *)

(** *** The handlers *)

Definition actionOf (handler : HandlerType) : Ec2Action :=
  match handler with
  | Start => StartInstances
  | Stop => StopInstances
  | Reboot => RebootInstances
  end.

(** The client and the command an invocation in the world [w] builds. *)
Definition issuedClient (w : World) : EC2Client :=
  {| region := process_env w !! "AWS_REGION" |}.

Definition issuedCommand (handler : HandlerType) (w : World) : Command :=
  {| action := actionOf handler;
     InstanceIds := [process_env w !! "INSTANCE_ID"] |}.

(** What the provider answers to that command. *)
Definition outcome (handler : HandlerType) (w : World) : SendOutcome :=
  provider w (issuedClient w) (issuedCommand handler w).

Definition successMessage (handler : HandlerType) : string :=
  match handler with
  | Start => "Started satisfactory server"
  | Stop => "Stopped satisfactory server"
  | Reboot => "Rebooted satisfactory server"
  end.

Definition failureMessage (handler : HandlerType) : string :=
  match handler with
  | Start => "Failed to start satisfactory server"
  | Stop => "Failed to stop satisfactory server"
  | Reboot => "Failed to reboot satisfactory server"
  end.

(** The response both branches of a handler build, from the message and the
    value they serialise. *)
Definition responseOf (message : string) (payload : JsValue) : Response :=
  {| statusCode := 200;
     headers := [("Content-Type", "text/json")];
     body := JSON.stringify (JsObject [
       ("message", JsString message);
       ("response", JSON.stringify payload)]) |}.

(** The JSON text of an object with a [message] and a [response], both
    strings. *)
Definition bodyText (message response : string) : string :=
  "{" +:+ JSON.quote "message" +:+ ":" +:+ JSON.quote message +:+ "," +:+
  JSON.quote "response" +:+ ":" +:+ JSON.quote response +:+ "}".

(** The JSON text of an object with a [message] only. *)
Definition bodyTextNoResponse (message : string) : string :=
  "{" +:+ JSON.quote "message" +:+ ":" +:+ JSON.quote message +:+ "}".

(** How the platform calls a handler: with the event of the HTTP request and
    the invocation context. *)
Definition invoke (handler : HandlerType) (event context : JsValue)
  : Lambda Response :=
  entryModule handler [event; context].

(** *** The stack *)

(** The network lookups the stack declares. *)
Definition vpcLookups (st : Stack) : list VpcLookupOptions :=
  omap (fun child =>
          match snd child with
          | VpcFromLookup options => Some options
          | _ => None
          end) (children st).

(** The subnets the stack imports: construct id, availability zone and
    subnet id. *)
Definition subnetImports (st : Stack) : list (string * string * string) :=
  omap (fun child =>
          match snd child with
          | SubnetFromAttributes az sid => Some (fst child, az, sid)
          | _ => None
          end) (children st).

(** The properties of the instances the stack declares. *)
Definition instances (st : Stack) : list InstanceProps :=
  omap (fun child =>
          match snd child with
          | NewInstance props => Some props
          | _ => None
          end) (children st).

(** The names of the existing buckets the stack refers to. *)
Definition importedBuckets (st : Stack) : list string :=
  omap (fun child =>
          match snd child with
          | BucketFromName name => Some name
          | _ => None
          end) (children st).

(** The ids of the buckets the stack creates. *)
Definition createdBuckets (st : Stack) : list string :=
  omap (fun child =>
          match snd child with
          | NewBucket => Some (fst child)
          | _ => None
          end) (children st).

(** The ids of the constructs of the control API: the REST API and the
    functions behind it. *)
Definition apiConstructs (st : Stack) : list string :=
  omap (fun child =>
          match snd child with
          | NewRestApi | NewNodejsFunction _ => Some (fst child)
          | _ => None
          end) (children st).

(** Who may read and write which bucket. *)
Definition readWriteGrants (st : Stack) : list (IRole * IBucket) :=
  omap (fun grant =>
          match snd grant with
          | BucketReadWrite bucket => Some (fst grant, bucket)
          | _ => None
          end) (permissions st).

(** The policy statements added to roles. *)
Definition statements (st : Stack) : list (IRole * PolicyStatement) :=
  omap (fun grant =>
          match snd grant with
          | Statement statement => Some (fst grant, statement)
          | _ => None
          end) (permissions st).

(** An endpoint, as the method, the path and the id of the function it
    calls. *)
Definition endpoints (st : Stack) : list (string * string * string) :=
  map (fun m => (httpMethod m, resource_path (method_resource m),
                 function_node (integration m))) (apiMethods st).

(** What [createLambda] adds for the three handlers, on a stack that has
    nothing else. *)
Definition controlApi (Config : ConfigT) (server : Instance) : Stack :=
  let p := prefix Config in
  let api := {| restApi_node := p +:+ "ServerApi" |} in
  let fn (handler : HandlerType) :=
    {| function_node :=
         p +:+ HandlerType_string handler +:+ "ServerLambda" |} in
  let res (handler : HandlerType) :=
    {| resource_api := api;
       resource_path := "/" +:+ toLowerCase (HandlerType_string handler) |} in
  {| children :=
       (p +:+ "ServerApi", NewRestApi) ::
       map (fun handler =>
         (p +:+ HandlerType_string handler +:+ "ServerLambda",
          NewNodejsFunction
            {| entry := "./server-hosting/lambda/" +:+
                        toLowerCase (HandlerType_string handler) +:+ ".ts";
               description := HandlerType_string handler +:+ " game server";
               timeout_seconds := 10;
               environment := [("INSTANCE_ID", Instance_instanceId server)];
               runtime := NODEJS_20_X |})) [Start; Stop; Reboot];
     ingressRules := [];
     permissions :=
       map (fun handler =>
         ({| role_owner := function_node (fn handler) |},
          Statement
            {| actions :=
                 ["ec2:" +:+ HandlerType_string handler +:+ "Instances"];
               resources :=
                 ["arn:aws:ec2:*:" +:+ account Config +:+ ":instance/" +:+
                  Instance_instanceId server] |}))
         [Start; Stop; Reboot];
     userData := [];
     apiResources := map res [Start; Stop; Reboot];
     apiMethods :=
       map (fun handler =>
         {| method_resource := res handler; httpMethod := "GET";
            integration := fn handler |}) [Start; Stop; Reboot] |}.

(** *** Sample worlds and configurations *)

Module Sample.

Definition instanceId : string := "i-0123456789abcdef0".

(** An acknowledgment of a state change, as the client deserialises it. *)
Definition acknowledgment : JsValue :=
  JsObject [
    ("$metadata", JsObject [("httpStatusCode", JsNumber 200);
                            ("attempts", JsNumber 1);
                            ("totalRetryDelay", JsNumber 0)]);
    ("StartingInstances", JsArray [
       JsObject [("CurrentState", JsObject [("Code", JsNumber 0);
                                            ("Name", JsString "pending")]);
                 ("InstanceId", JsString instanceId);
                 ("PreviousState", JsObject [("Code", JsNumber 80);
                                             ("Name", JsString "stopped")])]])].

(** The own enumerable properties of the error of a refused call. *)
Definition refusal : list (string * JsValue) :=
  [("name", JsString "InvalidInstanceID.Malformed");
   ("$fault", JsString "client");
   ("$metadata", JsObject [("httpStatusCode", JsNumber 400);
                           ("attempts", JsNumber 1)]);
   ("Code", JsString "InvalidInstanceID.Malformed")].

(** A provider that knows one instance, in any region that is given. *)
Definition ec2 (client : EC2Client) (command : Command) : SendOutcome :=
  match region client, InstanceIds command with
  | Some _, [Some id] =>
      if String.eqb id instanceId then Resolved acknowledgment
      else Rejected (JsObject refusal)
  | _, _ => Rejected (JsObject refusal)
  end.

Definition world (vars : gmap string string) : World :=
  {| process_env := vars; provider := ec2; console := []; sent := [] |}.

(** The environment the stack gives a function, with the region the
    platform adds. *)
Definition deployed : World :=
  world (<["AWS_REGION" := "eu-west-1"]> {["INSTANCE_ID" := instanceId]}).

(** The same, after an earlier invocation has written to the console. *)
Definition deployedLater : World :=
  {| process_env := process_env deployed; provider := ec2;
     console := [ConsoleLog [JsString "Attempting to stop game server";
                             JsString instanceId]];
     sent := [] |}.

(** No instance id in the environment, and an empty one. *)
Definition unset : World :=
  world {["AWS_REGION" := "eu-west-1"]}.
Definition empty : World :=
  world (<["AWS_REGION" := "eu-west-1"]> {["INSTANCE_ID" := ""]}).

(** The event of a request that carries a body and a query string. *)
Definition event : JsValue :=
  JsObject [("httpMethod", JsString "GET");
            ("path", JsString "/stop");
            ("queryStringParameters",
             JsObject [("instance", JsString "i-0aaaaaaaaaaaaaaaa")]);
            ("body", JsString "INSTANCE_ID=i-0bbbbbbbbbbbbbbbb")].

(** Every optional setting given, the control API on. *)
Definition explicit : ConfigT :=
  {| prefix := "SatisfactoryHosting";
     account := "123456789012";
     vpcId := Some "vpc-0a1b2c3d";
     subnetId := Some "subnet-0a1b2c3d";
     availabilityZone := Some "eu-west-1a";
     bucketName := Some "satisfactory-saves";
     restartApi := Some true;
     useExperimentalBuild := false |}.

(** Every optional setting left empty or out. *)
Definition defaults : ConfigT :=
  {| prefix := "SatisfactoryHosting";
     account := "123456789012";
     vpcId := Some "";
     subnetId := None;
     availabilityZone := Some "";
     bucketName := None;
     restartApi := None;
     useExperimentalBuild := true |}.

(** A subnet id with no availability zone. *)
Definition subnetOnly : ConfigT :=
  {| prefix := "SatisfactoryHosting";
     account := "123456789012";
     vpcId := None;
     subnetId := Some "subnet-0a1b2c3d";
     availabilityZone := None;
     bucketName := Some "";
     restartApi := Some false;
     useExperimentalBuild := false |}.

End Sample.

(** *** What the further statements speak of *)

(** The first line a handler writes to the console. *)
Definition attemptMessage (handler : HandlerType) : string :=
  match handler with
  | Start => "Attempting to start game server"
  | Stop => "Attempting to stop game server"
  | Reboot => "Attempting to reboot game server"
  end.

(** The value a settled call carries, and the message of the branch it
    leads to. *)
Definition payload (o : SendOutcome) : JsValue :=
  match o with
  | Resolved output => output
  | Rejected error => error
  end.

Definition branchMessage (handler : HandlerType) (o : SendOutcome) : string :=
  match o with
  | Resolved _ => successMessage handler
  | Rejected _ => failureMessage handler
  end.

(** The second line a handler writes to the console. *)
Definition outcomeLine (o : SendOutcome) : ConsoleLine :=
  match o with
  | Resolved output => ConsoleLog [JSON.stringify output]
  | Rejected error => ConsoleError [JSON.stringify error]
  end.

(** The name of the operation a command asks for: the name of its class
    without [Command]. *)
Definition Ec2Action_string (a : Ec2Action) : string :=
  match a with
  | StartInstances => "StartInstances"
  | StopInstances => "StopInstances"
  | RebootInstances => "RebootInstances"
  end.

(** The handler modules of the repository, by the path an [entry] gives. *)
Definition moduleAt (path : string)
  : option (list JsValue -> Lambda Response) :=
  if String.eqb path "./server-hosting/lambda/start.ts" then
    Some start.handler
  else if String.eqb path "./server-hosting/lambda/stop.ts" then
    Some stop.handler
  else if String.eqb path "./server-hosting/lambda/reboot.ts" then
    Some reboot.handler
  else None.

(** The ids of the network lookups, and the security groups with the
    network each is created in. *)
Definition vpcLookupIds (st : Stack) : list string :=
  omap (fun child =>
          match snd child with
          | VpcFromLookup _ => Some (fst child)
          | _ => None
          end) (children st).

Definition securityGroups (st : Stack) : list (string * IVpc) :=
  omap (fun child =>
          match snd child with
          | NewSecurityGroup vpc _ => Some (fst child, vpc)
          | _ => None
          end) (children st).

(** The functions the stack declares, by id. *)
Definition functions (st : Stack) : list (string * NodejsFunctionProps) :=
  omap (fun child =>
          match snd child with
          | NewNodejsFunction props => Some (fst child, props)
          | _ => None
          end) (children st).

(** What one role is allowed. *)
Definition permissionsOf (role : IRole) (st : Stack) : list Permission :=
  omap (fun grant =>
          if String.eqb (role_owner (fst grant)) (role_owner role)
          then Some (snd grant) else None) (permissions st).

(** A configuration with another value of the control API flag. *)
Definition withRestartApi (flag : option bool) (c : ConfigT) : ConfigT :=
  {| prefix := prefix c;
     account := account c;
     vpcId := vpcId c;
     subnetId := subnetId c;
     availabilityZone := availabilityZone c;
     bucketName := bucketName c;
     restartApi := flag;
     useExperimentalBuild := useExperimentalBuild c |}.

Module Scenario.

(** A provider whose promise is rejected with no value. *)
Definition rejectsWithNothing : World :=
  {| process_env := process_env Sample.deployed;
     provider := fun _ _ => Rejected JsUndefined;
     console := []; sent := [] |}.

(** The deployed environment, with more variables of the platform. *)
Definition deployedMore : World :=
  {| process_env :=
       <["AWS_LAMBDA_FUNCTION_NAME" := "SatisfactoryHostingStopServerLambda"]>
         (<["TZ" := ":UTC"]> (process_env Sample.deployed));
     provider := Sample.ec2;
     console := []; sent := [] |}.

(** The explicit configuration moved to another network and account, with
    the control API off. *)
Definition moved : ConfigT :=
  {| prefix := "SatisfactoryHosting";
     account := "210987654321";
     vpcId := None;
     subnetId := None;
     availabilityZone := None;
     bucketName := Some "satisfactory-saves";
     restartApi := Some false;
     useExperimentalBuild := false |}.

(** A world whose environment is the one the stack gives the stop function
    of the explicit configuration. *)
Definition stopFunction : World :=
  Sample.world
    (<["AWS_REGION" := "eu-west-1"]>
       {["INSTANCE_ID" := Token "SatisfactoryHostingServer" "InstanceId"]}).

End Scenario.

(** * Properties *)

(** ** Strings *)

Lemma append_assoc (a b c : string) : (a +:+ b) +:+ c = a +:+ (b +:+ c).
Proof.
  induction a as [|x a IH]; [reflexivity|].
  change (String x ((a +:+ b) +:+ c) = String x (a +:+ (b +:+ c))).
  now rewrite IH.
Qed.

(** Two ids under the same prefix are compared by what follows it. *)
Lemma eqb_app_prefix (p a b : string) :
  String.eqb (p +:+ a) (p +:+ b) = String.eqb a b.
Proof.
  induction p as [|c p IH]; [reflexivity|].
  change (Ascii.eqb c c && String.eqb (p +:+ a) (p +:+ b) = String.eqb a b).
  now rewrite Ascii.eqb_refl.
Qed.

Lemma eqb_app_prefix_false (p a b : string) :
  String.eqb a b = false -> String.eqb (p +:+ a) (p +:+ b) = false.
Proof. intros H. now rewrite eqb_app_prefix. Qed.

Lemma truthy_supplied (x : option string) (s : string) :
  x = Some s -> s <> "" -> truthy x = Some s.
Proof.
  intros -> Hne. unfold truthy.
  destruct (String.eqb_spec s "") as [Heq | _]; [contradiction | reflexivity].
Qed.

Lemma truthy_absent (x : option string) :
  x = None \/ x = Some "" -> truthy x = None.
Proof. intros [-> | ->]; reflexivity. Qed.

(** ** [JSON.stringify] *)

(** The digits of a number are never the empty text. *)
Lemma pretty_N_go_nonempty (x : N) (s : string) :
  s <> "" -> pretty_N_go x s <> "".
Proof.
  revert s. induction (N.lt_wf_0 x) as [x _ IH]. intros s Hs.
  destruct (N.eq_dec x 0%N) as [-> | Hx].
  - now rewrite pretty_N_go_0.
  - rewrite pretty_N_go_step by lia.
    apply IH; [apply N.div_lt; lia | discriminate].
Qed.

Lemma pretty_Z_nonempty (n : Z) : pretty n <> "".
Proof.
  assert (Hpos : forall q : positive, pretty q <> "").
  { intros q. unfold pretty, pretty_positive, pretty, pretty_N.
    destruct (decide (N.pos q = 0%N)) as [H | _]; [discriminate H|].
    rewrite pretty_N_go_step by lia.
    apply pretty_N_go_nonempty. discriminate. }
  destruct n as [| q | q]; unfold pretty, pretty_Z.
  - discriminate.
  - apply Hpos.
  - discriminate.
Qed.

(** Every value but [undefined] has a JSON text, which is not empty. *)
Lemma serialize_defined (v : JsValue) :
  v <> JsUndefined ->
  exists text, JSON.serialize v = Some text /\ text <> "".
Proof.
  intros Hv. destruct v as [| | [] | n | s | items | props]; simpl.
  - contradiction.
  - eexists; split; [reflexivity | discriminate].
  - eexists; split; [reflexivity | discriminate].
  - eexists; split; [reflexivity | discriminate].
  - eexists; split; [reflexivity | apply pretty_Z_nonempty].
  - eexists; split; [reflexivity | discriminate].
  - eexists; split; [reflexivity | discriminate].
  - eexists; split; [reflexivity | discriminate].
Qed.

Lemma stringify_defined (v : JsValue) :
  v <> JsUndefined ->
  exists text, JSON.stringify v = JsString text /\ text <> "".
Proof.
  intros Hv. destruct (serialize_defined v Hv) as (text & H & Hne).
  exists text. unfold JSON.stringify. rewrite H. now split.
Qed.

Lemma stringify_message_response (message response : string) :
  JSON.stringify
    (JsObject [("message", JsString message);
               ("response", JsString response)]) =
  JsString (bodyText message response).
Proof.
  unfold JSON.stringify, bodyText.
  cbn [JSON.serialize orUndefined JSON.join].
  now rewrite !append_assoc.
Qed.

(** A [response] that is [undefined] is left out of the body. *)
Lemma stringify_message_only (message : string) (v : JsValue) :
  JSON.serialize v = None ->
  JSON.stringify
    (JsObject [("message", JsString message);
               ("response", JSON.stringify v)]) =
  JsString (bodyTextNoResponse message).
Proof.
  intros H. unfold JSON.stringify at 2. rewrite H.
  unfold JSON.stringify, bodyTextNoResponse.
  cbn [JSON.serialize orUndefined JSON.join].
  now rewrite !append_assoc.
Qed.

Lemma body_is_string (message : string) (payload : JsValue) :
  exists text, body (responseOf message payload) = JsString text.
Proof.
  destruct (stringify_defined
    (JsObject [("message", JsString message);
               ("response", JSON.stringify payload)]))
    as (text & H & _); [discriminate |].
  exists text. exact H.
Qed.

(** ** The control handlers *)

Section Handlers.

Implicit Types (handler : HandlerType) (w : World) (args : list JsValue).

Ltac run_handler H :=
  unfold outcome, issuedClient, issuedCommand in H |- *;
  match goal with
  | handler : HandlerType |- _ => destruct handler
  end;
  simpl in H |- *;
  unfold start.handler, stop.handler, reboot.handler, bind, try_catch,
    send, getenv, gets, console_log, console_error, modify, ret; simpl;
  unfold StartInstancesCommand, StopInstancesCommand, RebootInstancesCommand;
  rewrite H; eexists; split; reflexivity.

(** The success branch: the command goes out once, nothing is thrown. *)
Lemma handler_resolved handler args w output :
  outcome handler w = Resolved output ->
  exists w',
    entryModule handler args w =
      (Normal (responseOf (successMessage handler) output), w') /\
    sent w' = (sent w ++ [(issuedClient w, issuedCommand handler w)])%list.
Proof. intros H. run_handler H. Qed.

(** The failure branch: the rejection is caught. *)
Lemma handler_rejected handler args w error :
  outcome handler w = Rejected error ->
  exists w',
    entryModule handler args w =
      (Normal (responseOf (failureMessage handler) error), w') /\
    sent w' = (sent w ++ [(issuedClient w, issuedCommand handler w)])%list.
Proof. intros H. run_handler H. Qed.

(** C1. For each of the three handlers, when the provider rejects the call
    with an error (any value but [undefined]), the handler returns status
    200, and its body is the JSON text of an object whose message is
    [Failed to start satisfactory server] (respectively stop, reboot) and
    whose response is the serialisation of that error, a string that is not
    empty. *)
Theorem failure_is_reported handler args w error :
  outcome handler w = Rejected error ->
  error <> JsUndefined ->
  exists (r : Response) (w' : World) (text : string),
    entryModule handler args w = (Normal r, w') /\
    statusCode r = 200 /\
    JSON.stringify error = JsString text /\
    text <> "" /\
    body r = JsString (bodyText (failureMessage handler) text).
Proof.
  intros H Herror.
  destruct (handler_rejected handler args w _ H) as (w' & Hrun & _).
  destruct (stringify_defined error Herror) as (text & Htext & Hne).
  exists (responseOf (failureMessage handler) error), w', text.
  repeat split; try assumption.
  cbn [body responseOf]. rewrite Htext. apply stringify_message_response.
Qed.

(** C2. For each of the three handlers, when the provider accepts the call
    with an acknowledgment (any value but [undefined]), the handler returns
    status 200, and its body is the JSON text of an object whose message is
    [Started satisfactory server] (respectively Stopped, Rebooted) and whose
    response is the serialisation of the acknowledgment. *)
Theorem success_is_reported handler args w output :
  outcome handler w = Resolved output ->
  output <> JsUndefined ->
  exists (r : Response) (w' : World) (text : string),
    entryModule handler args w = (Normal r, w') /\
    statusCode r = 200 /\
    JSON.stringify output = JsString text /\
    body r = JsString (bodyText (successMessage handler) text).
Proof.
  intros H Houtput.
  destruct (handler_resolved handler args w _ H) as (w' & Hrun & _).
  destruct (stringify_defined output Houtput) as (text & Htext & _).
  exists (responseOf (successMessage handler) output), w', text.
  repeat split; try assumption.
  cbn [body responseOf]. rewrite Htext. apply stringify_message_response.
Qed.

(** C9. Two invocations of a handler in worlds that have the same process
    environment, and whose providers answer alike to the command that
    environment leads to, return the same response, whatever event and
    context the two requests bring. *)
Theorem response_ignores_request handler
    (event1 context1 event2 context2 : JsValue) w1 w2 :
  process_env w1 = process_env w2 ->
  provider w1 (issuedClient w1) (issuedCommand handler w1) =
  provider w2 (issuedClient w1) (issuedCommand handler w1) ->
  fst (invoke handler event1 context1 w1) =
  fst (invoke handler event2 context2 w2).
Proof.
  intros Henv Hsame. unfold invoke.
  assert (Hout : outcome handler w1 = outcome handler w2).
  { unfold outcome at 2, issuedClient, issuedCommand.
    rewrite <- Henv. exact Hsame. }
  destruct (outcome handler w2) as [output | error] eqn:H2.
  - destruct (handler_resolved handler [event1; context1] w1 _ Hout)
      as (w1' & -> & _).
    destruct (handler_resolved handler [event2; context2] w2 _ H2)
      as (w2' & -> & _).
    reflexivity.
  - destruct (handler_rejected handler [event1; context1] w1 _ Hout)
      as (w1' & -> & _).
    destruct (handler_rejected handler [event2; context2] w2 _ H2)
      as (w2' & -> & _).
    reflexivity.
Qed.

(** C10. In every world, whatever the environment holds under
    [INSTANCE_ID] (nothing, the empty string, any string), a handler sends
    exactly one command, with that value unchecked as its only instance id,
    and returns a response: status 200, a body that is a string, and the
    content of the success branch or of the failure branch, according to the
    provider's answer.  It never ends by a throw. *)
Theorem handler_is_total handler args w :
  exists (r : Response) (w' : World),
    entryModule handler args w = (Normal r, w') /\
    statusCode r = 200 /\
    sent w' =
      (sent w ++
       [({| region := process_env w !! "AWS_REGION" |},
         {| action := actionOf handler;
            InstanceIds := [process_env w !! "INSTANCE_ID"] |})])%list /\
    (exists text, body r = JsString text) /\
    match outcome handler w with
    | Resolved output => r = responseOf (successMessage handler) output
    | Rejected error => r = responseOf (failureMessage handler) error
    end.
Proof.
  destruct (outcome handler w) as [output | error] eqn:H.
  - destruct (handler_resolved handler args w _ H) as (w' & Hrun & Hsent).
    exists (responseOf (successMessage handler) output), w'.
    repeat split; try assumption. apply body_is_string.
  - destruct (handler_rejected handler args w _ H) as (w' & Hrun & Hsent).
    exists (responseOf (failureMessage handler) error), w'.
    repeat split; try assumption. apply body_is_string.
Qed.

End Handlers.

(** The refused call of the reboot handler, with no instance id set. *)
Lemma failure_is_reported_witness :
  exists (r : Response) (w' : World) (text : string),
    reboot.handler [] Sample.unset = (Normal r, w') /\
    statusCode r = 200 /\
    JSON.stringify (JsObject Sample.refusal) = JsString text /\
    text <> "" /\
    body r = JsString (bodyText "Failed to reboot satisfactory server" text).
Proof.
  apply (failure_is_reported Reboot [] Sample.unset (JsObject Sample.refusal));
    [reflexivity | discriminate].
Defined.

(** The accepted call of the start handler. *)
Lemma success_is_reported_witness :
  exists (r : Response) (w' : World) (text : string),
    start.handler [] Sample.deployed = (Normal r, w') /\
    statusCode r = 200 /\
    JSON.stringify Sample.acknowledgment = JsString text /\
    body r = JsString (bodyText "Started satisfactory server" text).
Proof.
  apply (success_is_reported Start [] Sample.deployed Sample.acknowledgment);
    [reflexivity | discriminate].
Defined.

(** A request with a body and a query string, and one with neither. *)
Lemma response_ignores_request_witness :
  fst (invoke Stop Sample.event JsNull Sample.deployed) =
  fst (invoke Stop JsUndefined JsUndefined Sample.deployedLater).
Proof.
  apply (response_ignores_request Stop); reflexivity.
Defined.

(** With [INSTANCE_ID] unset the command carries [undefined]; with the empty
    string it carries the empty string. *)
Example unchecked_instance_id :
  map snd (sent (snd (start.handler [] Sample.unset))) =
    [StartInstancesCommand [None]] /\
  map snd (sent (snd (start.handler [] Sample.empty))) =
    [StartInstancesCommand [Some ""]].
Proof. split; reflexivity. Qed.

(** A promise rejected with [undefined], which has no JSON text, leaves the
    body without a [response]. *)
Example undefined_rejection :
  body (responseOf (failureMessage Stop) JsUndefined) =
  JsString (bodyTextNoResponse "Failed to stop satisfactory server").
Proof. now apply stringify_message_only. Qed.

(** ** The stack *)

(** Runs the constructor on ids that share the prefix: each new child is
    compared with the children so far, by what follows the prefix. *)
Ltac run_stack :=
  cbv -[String.append String.eqb truthy];
  repeat (rewrite !eqb_app_prefix_false by reflexivity;
          cbv -[String.append String.eqb truthy]).

Lemma lookUpOrDefaultVpc_eq (Config : ConfigT) (id : option string) :
  lookUpOrDefaultVpc Config id =
  Vpc_fromLookup (prefix Config +:+ "Vpc")
    match truthy id with
    | Some id => {| lookup_vpcId := Some id; lookup_isDefault := None |}
    | None => {| lookup_vpcId := None; lookup_isDefault := Some true |}
    end.
Proof. unfold lookUpOrDefaultVpc. now destruct (truthy id). Qed.

Lemma findOrCreateBucket_eq (Config : ConfigT) (name : option string) :
  findOrCreateBucket Config name =
  (addChild (prefix Config +:+ "SavesBucket")
     match truthy name with
     | Some name => BucketFromName name
     | None => NewBucket
     end ;;;
   ret {| bucket_node := prefix Config +:+ "SavesBucket";
          bucket_bucketName :=
            match truthy name with
            | Some name => name
            | None => Token (prefix Config +:+ "SavesBucket") "Ref"
            end |}).
Proof. unfold findOrCreateBucket. now destruct (truthy name). Qed.

Section Stack.

Variable Config : ConfigT.

Local Abbreviation p := (prefix Config).
Local Abbreviation vpc := {| vpc_node := p +:+ "Vpc" |}.
Local Abbreviation group :=
  {| securityGroup_node := p +:+ "ServerSecurityGroup" |}.
Local Abbreviation server := {| instance_node := p +:+ "Server" |}.
Local Abbreviation asset := {| asset_node := p +:+ "InstallAsset" |}.
Local Abbreviation savesBucket :=
  {| bucket_node := p +:+ "SavesBucket";
     bucket_bucketName :=
       match truthy (bucketName Config) with
       | Some name => name
       | None => Token (p +:+ "SavesBucket") "Ref"
       end |}.
Local Abbreviation serverProps :=
  {| instanceType := "m5a.xlarge";
     machineImage :=
       "/aws/service/canonical/ubuntu/server/20.04/stable/current/amd64/hvm/ebs-gp2/ami-id";
     blockDevices := [("/dev/sda1", 30)];
     vpcSubnets :=
       match truthy (subnetId Config), truthy (availabilityZone Config) with
       | Some _, Some _ =>
           {| subnets := Some [{| subnet_node := p +:+ "ServerSubnet" |}];
              subnetType := None |}
       | _, _ => {| subnets := None; subnetType := Some PUBLIC |}
       end;
     userDataCausesReplacement := true;
     instance_vpc := vpc;
     instance_securityGroup := group |}.
Local Abbreviation api :=
  (if strictlyTrue (restartApi Config) then controlApi Config server
   else emptyStack).

(** The constructor never throws, on any configuration, and this is the
    stack it leaves. *)
Lemma constructor_result :
  constructor Config emptyStack =
  (Normal tt,
   {| children :=
        [(p +:+ "Vpc",
          VpcFromLookup
            match truthy (vpcId Config) with
            | Some id =>
                {| lookup_vpcId := Some id; lookup_isDefault := None |}
            | None =>
                {| lookup_vpcId := None; lookup_isDefault := Some true |}
            end)] ++
        match truthy (subnetId Config), truthy (availabilityZone Config) with
        | Some sid, Some az =>
            [(p +:+ "ServerSubnet", SubnetFromAttributes az sid)]
        | _, _ => []
        end ++
        [(p +:+ "ServerSecurityGroup",
          NewSecurityGroup vpc
            "Allow Satisfactory client to connect to server");
         (p +:+ "Server", NewInstance serverProps);
         (p +:+ "SavesBucket",
          match truthy (bucketName Config) with
          | Some name => BucketFromName name
          | None => NewBucket
          end);
         (p +:+ "InstallAsset",
          NewAsset "./server-hosting/scripts/install.sh")] ++
        children api;
      ingressRules :=
        [{| rule_group := group; rule_peer := anyIpv4;
            rule_connection := udp 7777; rule_description := "Game port" |};
         {| rule_group := group; rule_peer := anyIpv4;
            rule_connection := udp 15000;
            rule_description := "Beacon port" |};
         {| rule_group := group; rule_peer := anyIpv4;
            rule_connection := udp 15777;
            rule_description := "Query port" |}];
      permissions :=
        [(Instance_role server, ManagedPolicy "AmazonSSMManagedInstanceCore");
         (Instance_role server, BucketReadWrite savesBucket);
         (Instance_role server, AssetRead asset)] ++ permissions api;
      userData :=
        [(Instance_userData server,
          Commands ["sudo apt-get install unzip -y"]);
         (Instance_userData server,
          Commands
            ["curl " +:+ dquote +:+
             "https://awscli.amazonaws.com/awscli-exe-linux-x86_64.zip" +:+
             dquote +:+ " -o " +:+ dquote +:+ "awscliv2.zip" +:+ dquote +:+
             " && unzip awscliv2.zip && ./aws/install"]);
         (Instance_userData server,
          S3DownloadCommand (Asset_bucket asset) (Asset_s3ObjectKey asset));
         (Instance_userData server,
          ExecuteFileCommand ("/tmp/" +:+ Asset_s3ObjectKey asset)
            (bucket_bucketName savesBucket +:+ " " +:+
             Boolean_toString (useExperimentalBuild Config)))];
      apiResources := apiResources api;
      apiMethods := apiMethods api |}).
Proof.
  unfold constructor.
  rewrite lookUpOrDefaultVpc_eq, findOrCreateBucket_eq.
  unfold publicOrLookupSubnet.
  destruct (truthy (subnetId Config)) as [sid|];
    destruct (truthy (availabilityZone Config)) as [az|];
    destruct (restartApi Config) as [[|]|].
  all: run_stack.
  all: reflexivity.
Qed.

Ltac run_constructor :=
  eexists; split; [apply constructor_result |].

Ltac api_cases :=
  destruct (restartApi Config) as [[|]|]; cbn [strictlyTrue].

Ltac other_cases :=
  repeat match goal with
  | |- context [truthy ?x] => destruct (truthy x)
  end.

(** C3. The constructor completes, and: when the flag is true, the stack
    has exactly the three endpoints GET /start, GET /stop and GET /reboot,
    each calling its own function, and exactly three policy statements, one
    per function, allowing the matching instance action on the server
    instance; when the flag is false or missing, it has no API resource, no
    method, no policy statement, no REST API and no function. *)
Theorem control_api_is_gated :
  exists st,
    constructor Config emptyStack = (Normal tt, st) /\
    match restartApi Config with
    | Some true =>
        endpoints st =
          [("GET", "/start", p +:+ "StartServerLambda");
           ("GET", "/stop", p +:+ "StopServerLambda");
           ("GET", "/reboot", p +:+ "RebootServerLambda")] /\
        map resource_path (apiResources st) = ["/start"; "/stop"; "/reboot"] /\
        statements st =
          [({| role_owner := p +:+ "StartServerLambda" |},
            {| actions := ["ec2:StartInstances"];
               resources :=
                 ["arn:aws:ec2:*:" +:+ account Config +:+ ":instance/" +:+
                  Instance_instanceId server] |});
           ({| role_owner := p +:+ "StopServerLambda" |},
            {| actions := ["ec2:StopInstances"];
               resources :=
                 ["arn:aws:ec2:*:" +:+ account Config +:+ ":instance/" +:+
                  Instance_instanceId server] |});
           ({| role_owner := p +:+ "RebootServerLambda" |},
            {| actions := ["ec2:RebootInstances"];
               resources :=
                 ["arn:aws:ec2:*:" +:+ account Config +:+ ":instance/" +:+
                  Instance_instanceId server] |})]
    | Some false | None =>
        apiResources st = [] /\ apiMethods st = [] /\
        statements st = [] /\ apiConstructs st = []
    end.
Proof.
  run_constructor. api_cases; other_cases; repeat split; reflexivity.
Qed.

(** C4. The constructor completes, and: when a network id is given (a
    string that is not empty), the only network lookup of the stack is the
    lookup of that id, with no default asked for; when it is missing or
    empty, the only lookup is that of the default network. *)
Theorem network_resolver :
  exists st,
    constructor Config emptyStack = (Normal tt, st) /\
    (forall id, vpcId Config = Some id -> id <> "" ->
       vpcLookups st =
         [{| lookup_vpcId := Some id; lookup_isDefault := None |}]) /\
    (vpcId Config = None \/ vpcId Config = Some "" ->
       vpcLookups st =
         [{| lookup_vpcId := None; lookup_isDefault := Some true |}]).
Proof.
  run_constructor. split.
  - intros id Hid Hne. rewrite (truthy_supplied _ _ Hid Hne).
    api_cases; other_cases; reflexivity.
  - intros H. rewrite (truthy_absent _ H).
    api_cases; other_cases; reflexivity.
Qed.

(** C5. The constructor completes and declares one instance, and: when a
    subnet id and an availability zone are both given (strings that are not
    empty), the stack imports exactly that subnet and the instance is placed
    in it; in every other case (one of the two, or both, missing or empty)
    no subnet is imported and the instance is placed in any subnet of the
    public type. *)
Theorem subnet_resolver :
  exists st props,
    constructor Config emptyStack = (Normal tt, st) /\
    instances st = [props] /\
    (forall sid az,
       subnetId Config = Some sid -> sid <> "" ->
       availabilityZone Config = Some az -> az <> "" ->
       subnetImports st = [(p +:+ "ServerSubnet", az, sid)] /\
       vpcSubnets props =
         {| subnets := Some [{| subnet_node := p +:+ "ServerSubnet" |}];
            subnetType := None |}) /\
    (subnetId Config = None \/ subnetId Config = Some "" \/
     availabilityZone Config = None \/ availabilityZone Config = Some "" ->
       subnetImports st = [] /\
       vpcSubnets props = {| subnets := None; subnetType := Some PUBLIC |}).
Proof.
  exists (snd (constructor Config emptyStack)), serverProps.
  rewrite constructor_result.
  split; [reflexivity |].
  split; [api_cases; other_cases; reflexivity |]. split.
  - intros sid az Hsid Hs Haz Ha.
    rewrite (truthy_supplied _ _ Hsid Hs), (truthy_supplied _ _ Haz Ha).
    api_cases; other_cases; split; reflexivity.
  - intros H.
    assert (Hcase : truthy (subnetId Config) = None \/
                    truthy (availabilityZone Config) = None).
    { destruct H as [H | [H | [H | H]]].
      - left. apply truthy_absent. now left.
      - left. apply truthy_absent. now right.
      - right. apply truthy_absent. now left.
      - right. apply truthy_absent. now right. }
    destruct Hcase as [-> | ->];
      api_cases; other_cases; split; reflexivity.
Qed.

(** C6. The constructor completes, and: when a bucket name is given (a
    string that is not empty), the stack refers to the existing bucket of
    that name and creates no bucket; when it is missing or empty, the stack
    creates exactly one bucket, whose name the provider generates, and
    refers to no existing one.  In both cases the role of the instance is
    granted read and write on that bucket, and on no other. *)
Theorem storage_resolver :
  exists st,
    constructor Config emptyStack = (Normal tt, st) /\
    (forall name, bucketName Config = Some name -> name <> "" ->
       importedBuckets st = [name] /\
       createdBuckets st = [] /\
       readWriteGrants st =
         [(Instance_role server,
           {| bucket_node := p +:+ "SavesBucket";
              bucket_bucketName := name |})]) /\
    (bucketName Config = None \/ bucketName Config = Some "" ->
       importedBuckets st = [] /\
       createdBuckets st = [p +:+ "SavesBucket"] /\
       readWriteGrants st =
         [(Instance_role server,
           {| bucket_node := p +:+ "SavesBucket";
              bucket_bucketName := Token (p +:+ "SavesBucket") "Ref" |})]).
Proof.
  run_constructor. split.
  - intros name Hname Hne. rewrite (truthy_supplied _ _ Hname Hne).
    api_cases; other_cases; repeat split; reflexivity.
  - intros H. rewrite (truthy_absent _ H).
    api_cases; other_cases; repeat split; reflexivity.
Qed.

(** C7. The constructor completes, and the ingress rules of the stack are
    exactly three, all on the security group of the server and all from any
    IPv4 address: UDP 7777, UDP 15000 and UDP 15777. *)
Theorem security_group_rules :
  exists st,
    constructor Config emptyStack = (Normal tt, st) /\
    ingressRules st =
      [{| rule_group := group; rule_peer := anyIpv4;
          rule_connection := udp 7777; rule_description := "Game port" |};
       {| rule_group := group; rule_peer := anyIpv4;
          rule_connection := udp 15000; rule_description := "Beacon port" |};
       {| rule_group := group; rule_peer := anyIpv4;
          rule_connection := udp 15777; rule_description := "Query port" |}] /\
    map instance_securityGroup (instances st) = [group].
Proof.
  run_constructor. split; [reflexivity |].
  api_cases; other_cases; reflexivity.
Qed.

(** C8. The constructor completes, and the user data of the server is, in
    this order: the command that installs unzip, the command that installs
    the AWS command line tool, the download of the install asset, and the
    execution of the downloaded file with the arguments made of the name of
    the saves bucket (the one bucket the instance may read and write), one
    space, and the experimental-build flag as text. *)
Theorem bootstrap_sequence :
  exists st bucket,
    constructor Config emptyStack = (Normal tt, st) /\
    readWriteGrants st = [(Instance_role server, bucket)] /\
    userData st =
      [(Instance_userData server,
        Commands ["sudo apt-get install unzip -y"]);
       (Instance_userData server,
        Commands
          ["curl " +:+ dquote +:+
           "https://awscli.amazonaws.com/awscli-exe-linux-x86_64.zip" +:+
           dquote +:+ " -o " +:+ dquote +:+ "awscliv2.zip" +:+ dquote +:+
           " && unzip awscliv2.zip && ./aws/install"]);
       (Instance_userData server,
        S3DownloadCommand (Asset_bucket asset) (Asset_s3ObjectKey asset));
       (Instance_userData server,
        ExecuteFileCommand ("/tmp/" +:+ Asset_s3ObjectKey asset)
          (bucket_bucketName bucket +:+ " " +:+
           (if useExperimentalBuild Config then "true" else "false")))].
Proof.
  exists (snd (constructor Config emptyStack)), savesBucket.
  rewrite constructor_result. split; [reflexivity |]. split.
  - api_cases; other_cases; reflexivity.
  - reflexivity.
Qed.

End Stack.

(** A network id given, and an empty one. *)
Lemma network_resolver_witness :
  (exists st,
     constructor Sample.explicit emptyStack = (Normal tt, st) /\
     vpcLookups st =
       [{| lookup_vpcId := Some "vpc-0a1b2c3d"; lookup_isDefault := None |}]) /\
  (exists st,
     constructor Sample.defaults emptyStack = (Normal tt, st) /\
     vpcLookups st =
       [{| lookup_vpcId := None; lookup_isDefault := Some true |}]).
Proof.
  split.
  - destruct (network_resolver Sample.explicit) as (st & Hrun & Hgiven & _).
    exists st. split; [exact Hrun |].
    apply (Hgiven "vpc-0a1b2c3d"); [reflexivity | discriminate].
  - destruct (network_resolver Sample.defaults) as (st & Hrun & _ & Hmissing).
    exists st. split; [exact Hrun |].
    apply Hmissing. right. reflexivity.
Defined.

(** Both a subnet id and an availability zone, and a subnet id alone. *)
Lemma subnet_resolver_witness :
  (exists st props,
     constructor Sample.explicit emptyStack = (Normal tt, st) /\
     instances st = [props] /\
     subnetImports st =
       [("SatisfactoryHostingServerSubnet", "eu-west-1a",
         "subnet-0a1b2c3d")] /\
     vpcSubnets props =
       {| subnets :=
            Some [{| subnet_node := "SatisfactoryHostingServerSubnet" |}];
          subnetType := None |}) /\
  (exists st props,
     constructor Sample.subnetOnly emptyStack = (Normal tt, st) /\
     instances st = [props] /\
     subnetImports st = [] /\
     vpcSubnets props = {| subnets := None; subnetType := Some PUBLIC |}).
Proof.
  split.
  - destruct (subnet_resolver Sample.explicit)
      as (st & props & Hrun & Hone & Hboth & _).
    exists st, props. split; [exact Hrun |]. split; [exact Hone |].
    apply (Hboth "subnet-0a1b2c3d" "eu-west-1a");
      [reflexivity | discriminate | reflexivity | discriminate].
  - destruct (subnet_resolver Sample.subnetOnly)
      as (st & props & Hrun & Hone & _ & Helse).
    exists st, props. split; [exact Hrun |]. split; [exact Hone |].
    apply Helse. right. right. left. reflexivity.
Defined.

(** A bucket name given, and none. *)
Lemma storage_resolver_witness :
  (exists st,
     constructor Sample.explicit emptyStack = (Normal tt, st) /\
     importedBuckets st = ["satisfactory-saves"] /\
     createdBuckets st = [] /\
     readWriteGrants st =
       [({| role_owner := "SatisfactoryHostingServer" |},
         {| bucket_node := "SatisfactoryHostingSavesBucket";
            bucket_bucketName := "satisfactory-saves" |})]) /\
  (exists st,
     constructor Sample.defaults emptyStack = (Normal tt, st) /\
     importedBuckets st = [] /\
     createdBuckets st = ["SatisfactoryHostingSavesBucket"] /\
     readWriteGrants st =
       [({| role_owner := "SatisfactoryHostingServer" |},
         {| bucket_node := "SatisfactoryHostingSavesBucket";
            bucket_bucketName :=
              Token "SatisfactoryHostingSavesBucket" "Ref" |})]).
Proof.
  split.
  - destruct (storage_resolver Sample.explicit) as (st & Hrun & Hgiven & _).
    exists st. split; [exact Hrun |].
    apply (Hgiven "satisfactory-saves"); [reflexivity | discriminate].
  - destruct (storage_resolver Sample.defaults) as (st & Hrun & _ & Hmissing).
    exists st. split; [exact Hrun |].
    apply Hmissing. left. reflexivity.
Defined.

(** The stack of the configuration with a subnet id and no availability
    zone, run as it is: one instance, in any public subnet, and nothing of
    the control API. *)
Example subnet_only_stack :
  exists st,
    constructor Sample.subnetOnly emptyStack = (Normal tt, st) /\
    map vpcSubnets (instances st) =
      [{| subnets := None; subnetType := Some PUBLIC |}] /\
    map fst (children st) =
      ["SatisfactoryHostingVpc"; "SatisfactoryHostingServerSecurityGroup";
       "SatisfactoryHostingServer"; "SatisfactoryHostingSavesBucket";
       "SatisfactoryHostingInstallAsset"] /\
    endpoints st = [].
Proof. eexists. split; [vm_compute; reflexivity |]. repeat split. Qed.

(** The arguments of the installer, for a bucket that exists and for one the
    stack creates. *)
Example installer_arguments :
  map snd (userData (snd (constructor Sample.explicit emptyStack))) !! 3%nat =
    Some (ExecuteFileCommand
            ("/tmp/" +:+ Token "SatisfactoryHostingInstallAsset" "S3ObjectKey")
            "satisfactory-saves false") /\
  map snd (userData (snd (constructor Sample.defaults emptyStack))) !! 3%nat =
    Some (ExecuteFileCommand
            ("/tmp/" +:+ Token "SatisfactoryHostingInstallAsset" "S3ObjectKey")
            "${Token[SatisfactoryHostingSavesBucket.Ref]} true").
Proof. split; vm_compute; reflexivity. Qed.

(** ** More on the control handlers *)

Section MoreHandlers.

Implicit Types (handler : HandlerType) (w : World) (args : list JsValue).

(** What an invocation returns and the world it leaves, in full. *)
Lemma handler_run handler args w :
  entryModule handler args w =
  (Normal (responseOf (branchMessage handler (outcome handler w))
                      (payload (outcome handler w))),
   {| process_env := process_env w;
      provider := provider w;
      console :=
        ((console w ++
          [ConsoleLog [JsString (attemptMessage handler);
                       orUndefined (process_env w !! "INSTANCE_ID")]]) ++
         [outcomeLine (outcome handler w)])%list;
      sent := (sent w ++ [(issuedClient w, issuedCommand handler w)])%list |}).
Proof.
  unfold outcome, issuedClient, issuedCommand.
  destruct handler; simpl;
    unfold start.handler, stop.handler, reboot.handler, bind, try_catch,
      send, getenv, gets, console_log, console_error, modify, ret; simpl;
    unfold StartInstancesCommand, StopInstancesCommand,
      RebootInstancesCommand;
    destruct (provider w _ _); reflexivity.
Qed.

Lemma body_of_response (message : string) (v : JsValue) :
  body (responseOf message v) =
  JsString match JSON.serialize v with
           | Some text => bodyText message text
           | None => bodyTextNoResponse message
           end.
Proof.
  destruct (JSON.serialize v) as [text|] eqn:H.
  - cbn [body responseOf]. unfold JSON.stringify at 2. rewrite H.
    apply stringify_message_response.
  - now apply stringify_message_only.
Qed.

(** X1. Every invocation writes exactly two lines to the console: first the
    attempt message with the instance id read from the environment
    ([undefined] when it is not set), before the provider's answer is
    known; then the serialised answer, with [console.log] when the call was
    accepted and with [console.error] when it was rejected. *)
Theorem handler_logs handler args w :
  exists (r : Response) (w' : World),
    entryModule handler args w = (Normal r, w') /\
    console w' =
      (console w ++
       [ConsoleLog [JsString (attemptMessage handler);
                    orUndefined (process_env w !! "INSTANCE_ID")];
        match outcome handler w with
        | Resolved output => ConsoleLog [JSON.stringify output]
        | Rejected error => ConsoleError [JSON.stringify error]
        end])%list.
Proof.
  eexists; eexists. split; [apply handler_run |].
  cbn [console]. rewrite <- app_assoc. reflexivity.
Qed.

(** X2. When the call settles with [undefined] (a promise rejected, or
    fulfilled, with no value), [JSON.stringify] of it is [undefined] and the
    body is the JSON text of an object that has the message of the branch
    and no [response] property; the status is still 200. *)
Theorem settled_without_value handler args w :
  payload (outcome handler w) = JsUndefined ->
  exists (r : Response) (w' : World),
    entryModule handler args w = (Normal r, w') /\
    statusCode r = 200 /\
    body r =
      JsString (bodyTextNoResponse
                  match outcome handler w with
                  | Resolved _ => successMessage handler
                  | Rejected _ => failureMessage handler
                  end).
Proof.
  intros H. eexists; eexists. split; [apply handler_run |].
  split; [reflexivity |].
  rewrite body_of_response, H. reflexivity.
Qed.

(** X3. The body of a response tells the two branches apart: whatever the
    handlers, the worlds and the values carried, the body returned for an
    accepted call is never the body returned for a rejected call. *)
Theorem branches_differ handler1 handler2 args1 args2 w1 w2 output error :
  outcome handler1 w1 = Resolved output ->
  outcome handler2 w2 = Rejected error ->
  exists (r1 r2 : Response) (w1' w2' : World),
    entryModule handler1 args1 w1 = (Normal r1, w1') /\
    entryModule handler2 args2 w2 = (Normal r2, w2') /\
    body r1 <> body r2.
Proof.
  intros H1 H2. do 4 eexists.
  split; [apply handler_run |]. split; [apply handler_run |].
  rewrite H1, H2, !body_of_response. cbn [branchMessage payload].
  destruct handler1, handler2;
    destruct (JSON.serialize output), (JSON.serialize error);
    intros H;
    apply (f_equal (fun v => match v with
                             | JsString text => String.get 12 text
                             | _ => None
                             end)) in H;
    lazy in H; discriminate H.
Qed.

(** X4. A handler reads two variables of the environment and no other: two
    worlds that agree on [INSTANCE_ID], on [AWS_REGION] and on the provider
    lead to the same response and to the same client and command, whatever
    else their environments hold and whatever arguments are passed. *)
Theorem handler_reads_two_variables handler args1 args2 w1 w2 :
  process_env w1 !! "INSTANCE_ID" = process_env w2 !! "INSTANCE_ID" ->
  process_env w1 !! "AWS_REGION" = process_env w2 !! "AWS_REGION" ->
  provider w1 = provider w2 ->
  exists (r : Response) (w1' w2' : World)
         (client : EC2Client) (command : Command),
    entryModule handler args1 w1 = (Normal r, w1') /\
    entryModule handler args2 w2 = (Normal r, w2') /\
    sent w1' = (sent w1 ++ [(client, command)])%list /\
    sent w2' = (sent w2 ++ [(client, command)])%list.
Proof.
  intros Hid Hregion Hprovider.
  assert (Hclient : issuedClient w1 = issuedClient w2).
  { unfold issuedClient. now rewrite Hregion. }
  assert (Hcommand : issuedCommand handler w1 = issuedCommand handler w2).
  { unfold issuedCommand. now rewrite Hid. }
  assert (Hout : outcome handler w1 = outcome handler w2).
  { unfold outcome. now rewrite Hclient, Hcommand, Hprovider. }
  do 3 eexists. exists (issuedClient w2), (issuedCommand handler w2).
  split; [rewrite handler_run, Hout; reflexivity |].
  split; [apply handler_run |].
  cbn [sent]. now rewrite Hclient, Hcommand.
Qed.

(** X5. Invocations are not merged: two invocations in a row, of the same
    handler or of two, each return status 200 and each send their own
    command, so that the provider receives two commands, in the order of
    the invocations. *)
Theorem invocations_do_not_merge handler1 handler2 args1 args2 w :
  exists (r1 r2 : Response) (w' : World),
    (let* r1 := entryModule handler1 args1 in
     let* r2 := entryModule handler2 args2 in
     ret (r1, r2)) w = (Normal (r1, r2), w') /\
    statusCode r1 = 200 /\ statusCode r2 = 200 /\
    sent w' =
      (sent w ++
       [({| region := process_env w !! "AWS_REGION" |},
         {| action := actionOf handler1;
            InstanceIds := [process_env w !! "INSTANCE_ID"] |});
        ({| region := process_env w !! "AWS_REGION" |},
         {| action := actionOf handler2;
            InstanceIds := [process_env w !! "INSTANCE_ID"] |})])%list.
Proof.
  do 3 eexists. split.
  - unfold bind. rewrite handler_run. rewrite handler_run.
    unfold ret. reflexivity.
  - split; [reflexivity |]. split; [reflexivity |].
    cbn [sent]. rewrite <- app_assoc. reflexivity.
Qed.

End MoreHandlers.

(** A promise rejected with no value, in the stop handler. *)
Lemma settled_without_value_witness :
  exists (r : Response) (w' : World),
    stop.handler [] Scenario.rejectsWithNothing = (Normal r, w') /\
    statusCode r = 200 /\
    body r =
      JsString (bodyTextNoResponse "Failed to stop satisfactory server").
Proof.
  apply (settled_without_value Stop [] Scenario.rejectsWithNothing).
  reflexivity.
Defined.

(** The start handler, accepted in one world and refused in another. *)
Lemma branches_differ_witness :
  exists (r1 r2 : Response) (w1' w2' : World),
    start.handler [] Sample.deployed = (Normal r1, w1') /\
    start.handler [] Sample.unset = (Normal r2, w2') /\
    body r1 <> body r2.
Proof.
  apply (branches_differ Start Start [] [] Sample.deployed Sample.unset
           Sample.acknowledgment (JsObject Sample.refusal)); reflexivity.
Defined.

(** The deployed environment, and the same with two more variables. *)
Lemma handler_reads_two_variables_witness :
  exists (r : Response) (w1' w2' : World)
         (client : EC2Client) (command : Command),
    stop.handler [] Sample.deployed = (Normal r, w1') /\
    stop.handler [Sample.event] Scenario.deployedMore = (Normal r, w2') /\
    sent w1' = (sent Sample.deployed ++ [(client, command)])%list /\
    sent w2' = (sent Scenario.deployedMore ++ [(client, command)])%list.
Proof.
  apply (handler_reads_two_variables Stop [] [Sample.event]
           Sample.deployed Scenario.deployedMore); reflexivity.
Defined.

(** ** More on the stack *)

Section MoreStack.

Variable Config : ConfigT.

Local Abbreviation p := (prefix Config).
Local Abbreviation server := {| instance_node := p +:+ "Server" |}.
Local Abbreviation placement :=
  match truthy (subnetId Config), truthy (availabilityZone Config) with
  | Some _, Some _ =>
      {| subnets := Some [{| subnet_node := p +:+ "ServerSubnet" |}];
         subnetType := None |}
  | _, _ => {| subnets := None; subnetType := Some PUBLIC |}
  end.
Local Abbreviation serverProps :=
  {| instanceType := "m5a.xlarge";
     machineImage :=
       "/aws/service/canonical/ubuntu/server/20.04/stable/current/amd64/hvm/ebs-gp2/ami-id";
     blockDevices := [("/dev/sda1", 30)];
     vpcSubnets := placement;
     userDataCausesReplacement := true;
     instance_vpc := {| vpc_node := p +:+ "Vpc" |};
     instance_securityGroup :=
       {| securityGroup_node := p +:+ "ServerSecurityGroup" |} |}.

Ltac flag_cases :=
  destruct (restartApi Config) as [[|]|]; cbn [strictlyTrue].

Lemma app_prefix_ne (a b : string) : a <> b -> p +:+ a <> p +:+ b.
Proof. intros Hne H. apply Hne. exact (String.app_inj p a b H). Qed.

Ltac distinct_ids :=
  repeat (apply NoDup_cons_2;
          [ rewrite ?not_elem_of_cons; repeat split;
            try apply not_elem_of_nil;
            apply app_prefix_ne; discriminate
          | ]);
  apply NoDup_nil_2.

(** X6. On every configuration the ids of the constructs of the stack all
    begin with the configured prefix, and no two of them are equal: the
    check for a duplicate id never fires. *)
Theorem construct_ids :
  exists st,
    constructor Config emptyStack = (Normal tt, st) /\
    Forall (fun id => exists suffix, id = p +:+ suffix)
           (map fst (children st)) /\
    NoDup (map fst (children st)).
Proof.
  eexists. split; [apply constructor_result |].
  flag_cases;
    destruct (truthy (subnetId Config)), (truthy (availabilityZone Config));
    cbn -[String.append]; split;
    try (repeat constructor; eexists; reflexivity);
    distinct_ids.
Qed.

(** X7. On every configuration the role of the instance is allowed exactly
    three things: the managed policy AmazonSSMManagedInstanceCore, to read
    and write the saves bucket (the only bucket anyone may read and write),
    and to read the install asset.  It holds none of the statements on
    instance actions, with the control API on or off. *)
Theorem instance_role_permissions :
  exists st bucket,
    constructor Config emptyStack = (Normal tt, st) /\
    readWriteGrants st = [(Instance_role server, bucket)] /\
    permissionsOf (Instance_role server) st =
      [ManagedPolicy "AmazonSSMManagedInstanceCore";
       BucketReadWrite bucket;
       AssetRead {| asset_node := p +:+ "InstallAsset" |}].
Proof.
  eexists; eexists. split; [apply constructor_result |].
  split.
  - flag_cases; reflexivity.
  - unfold permissionsOf.
    flag_cases; cbn -[String.append String.eqb truthy];
      rewrite ?eqb_app_prefix; reflexivity.
Qed.

(** X8. On every configuration the stack has one instance, one network
    lookup and one security group, and they fit together: the network of the
    instance is the one looked up, the security group is created in that
    same network and is the one attached to the instance, and the three
    ingress rules are rules of that group. *)
Theorem network_is_shared :
  exists st props,
    constructor Config emptyStack = (Normal tt, st) /\
    instances st = [props] /\
    vpcLookupIds st = [vpc_node (instance_vpc props)] /\
    securityGroups st =
      [(securityGroup_node (instance_securityGroup props),
        instance_vpc props)] /\
    map rule_group (ingressRules st) =
      [instance_securityGroup props; instance_securityGroup props;
       instance_securityGroup props].
Proof.
  exists (snd (constructor Config emptyStack)), serverProps.
  rewrite constructor_result. split; [reflexivity |].
  split; [| split; [| split]].
  - flag_cases;
      destruct (truthy (subnetId Config)),
        (truthy (availabilityZone Config)), (truthy (bucketName Config));
      reflexivity.
  - flag_cases;
      destruct (truthy (subnetId Config)),
        (truthy (availabilityZone Config)), (truthy (bucketName Config));
      reflexivity.
  - flag_cases;
      destruct (truthy (subnetId Config)),
        (truthy (availabilityZone Config)), (truthy (bucketName Config));
      reflexivity.
  - reflexivity.
Qed.

End MoreStack.

(** X9. The user data of the instance depends on three settings only: two
    configurations with the same prefix, bucket name and experimental-build
    flag lead to the same user data, whatever their network settings,
    account and control API flag. *)
Theorem bootstrap_depends_on (c1 c2 : ConfigT) :
  prefix c1 = prefix c2 ->
  bucketName c1 = bucketName c2 ->
  useExperimentalBuild c1 = useExperimentalBuild c2 ->
  exists st1 st2,
    constructor c1 emptyStack = (Normal tt, st1) /\
    constructor c2 emptyStack = (Normal tt, st2) /\
    userData st1 = userData st2.
Proof.
  intros Hp Hb He. do 2 eexists.
  split; [apply constructor_result |].
  split; [apply constructor_result |].
  cbn [userData]. rewrite Hp, Hb, He. reflexivity.
Qed.

(** The explicit configuration, and the same moved to the default network
    and another account, with the control API off. *)
Lemma bootstrap_depends_on_witness :
  exists st1 st2,
    constructor Sample.explicit emptyStack = (Normal tt, st1) /\
    constructor Scenario.moved emptyStack = (Normal tt, st2) /\
    userData st1 = userData st2.
Proof.
  apply (bootstrap_depends_on Sample.explicit Scenario.moved); reflexivity.
Defined.

(** X10. Turning the control API on only adds to the stack: the constructs
    and the permissions of the stack without the API are those of the stack
    with it, in the same order, followed by the constructs of the API and
    the permissions of its functions; the ingress rules and the user data
    are the same. *)
Theorem control_api_only_adds (Config : ConfigT) :
  exists off on moreChildren morePermissions,
    constructor (withRestartApi (Some false) Config) emptyStack =
      (Normal tt, off) /\
    constructor (withRestartApi (Some true) Config) emptyStack =
      (Normal tt, on) /\
    children on = (children off ++ moreChildren)%list /\
    map fst moreChildren = apiConstructs on /\
    permissions on = (permissions off ++ morePermissions)%list /\
    map (fun grant => role_owner (fst grant)) morePermissions =
      map (fun m => function_node (integration m)) (apiMethods on) /\
    ingressRules on = ingressRules off /\
    userData on = userData off.
Proof.
  exists (snd (constructor (withRestartApi (Some false) Config) emptyStack)),
         (snd (constructor (withRestartApi (Some true) Config) emptyStack)),
         (children (controlApi Config
                      {| instance_node := prefix Config +:+ "Server" |})),
         (permissions (controlApi Config
                         {| instance_node := prefix Config +:+ "Server" |})).
  rewrite !constructor_result.
  cbn [withRestartApi prefix account vpcId subnetId availabilityZone
       bucketName restartApi useExperimentalBuild strictlyTrue snd].
  split; [reflexivity |]. split; [reflexivity |].
  split; [| split; [| split; [| split; [| split]]]].
  - cbn [children emptyStack]. now rewrite !app_assoc, app_nil_r.
  - destruct (truthy (subnetId Config)),
      (truthy (availabilityZone Config)), (truthy (bucketName Config));
      reflexivity.
  - cbn [permissions emptyStack]. now rewrite app_nil_r.
  - reflexivity.
  - reflexivity.
  - reflexivity.
Qed.

(** X11. With the control API on, each endpoint is wired end to end: the
    function behind GET /start (respectively /stop, /reboot) has for entry
    the module of the start (stop, reboot) handler; its environment defines
    [INSTANCE_ID] as the id of the instance of the stack; run in an
    environment that contains the function's, that handler sends the start
    (stop, reboot) command for that instance; and the role of the function
    is allowed exactly that action on exactly that instance. *)
Theorem endpoint_is_wired (Config : ConfigT) (handler : HandlerType) :
  restartApi Config = Some true ->
  let fid := prefix Config +:+ HandlerType_string handler +:+ "ServerLambda" in
  let instanceId :=
    Instance_instanceId {| instance_node := prefix Config +:+ "Server" |} in
  exists st props,
    constructor Config emptyStack = (Normal tt, st) /\
    In (fid, props) (functions st) /\
    In ("GET", "/" +:+ toLowerCase (HandlerType_string handler), fid)
       (endpoints st) /\
    moduleAt (entry props) = Some (entryModule handler) /\
    environment props = [("INSTANCE_ID", instanceId)] /\
    permissionsOf {| role_owner := fid |} st =
      [Statement
         {| actions := ["ec2:" +:+ Ec2Action_string (actionOf handler)];
            resources := ["arn:aws:ec2:*:" +:+ account Config +:+
                          ":instance/" +:+ instanceId] |}] /\
    forall (args : list JsValue) (w : World),
      (forall name value,
         In (name, value) (environment props) ->
         process_env w !! name = Some value) ->
      exists (r : Response) (w' : World),
        entryModule handler args w = (Normal r, w') /\
        map snd (sent w') =
          (map snd (sent w) ++
           [{| action := actionOf handler;
               InstanceIds := [Some instanceId] |}])%list.
Proof.
  intros Hflag fid instanceId.
  exists (snd (constructor Config emptyStack)),
    {| entry := "./server-hosting/lambda/" +:+
                toLowerCase (HandlerType_string handler) +:+ ".ts";
       description := HandlerType_string handler +:+ " game server";
       timeout_seconds := 10;
       environment := [("INSTANCE_ID", instanceId)];
       runtime := NODEJS_20_X |}.
  rewrite constructor_result, Hflag. cbn [strictlyTrue snd].
  split; [reflexivity |]. subst fid instanceId.
  split; [| split; [| split; [| split; [| split]]]].
  - destruct handler;
      destruct (truthy (subnetId Config)),
        (truthy (availabilityZone Config)), (truthy (bucketName Config));
      cbn -[String.append].
      all: try (left; reflexivity).
      all: try (right; left; reflexivity).
      all: try (right; right; left; reflexivity).
  - destruct handler; cbn -[String.append].
      all: try (left; reflexivity).
      all: try (right; left; reflexivity).
      all: try (right; right; left; reflexivity).
  - destruct handler; reflexivity.
  - reflexivity.
  - unfold permissionsOf.
    destruct handler; cbn -[String.append String.eqb truthy];
      rewrite ?eqb_app_prefix; reflexivity.
  - intros args w Henv.
    assert (Hid : process_env w !! "INSTANCE_ID" =
                  Some (Instance_instanceId
                          {| instance_node := prefix Config +:+ "Server" |})).
    { apply Henv. left. reflexivity. }
    do 2 eexists. split; [apply handler_run |].
    cbn [sent]. rewrite map_app. unfold issuedCommand. rewrite Hid.
    reflexivity.
Qed.

(** The stop function of the explicit configuration. *)
Lemma endpoint_is_wired_witness :
  exists (r : Response) (w' : World),
    stop.handler [] Scenario.stopFunction = (Normal r, w') /\
    map snd (sent w') =
      [StopInstancesCommand
         [Some (Token "SatisfactoryHostingServer" "InstanceId")]].
Proof.
  destruct (endpoint_is_wired Sample.explicit Stop eq_refl)
    as (st & props & _ & _ & _ & _ & Henv & _ & Hsend).
  apply (Hsend [] Scenario.stopFunction).
  rewrite Henv. intros name value [[= <- <-] | []]. reflexivity.
Defined.
